(** * crates.io front end: version resolution, invitations, ownership, routes

    A shallow embedding of the decision logic of the Ember application:
    - the crate-version route ([VersionRoute], model hook with its fallback
      rules, flash warning and README side effect),
    - the pending-invitation component ([InviteRow], accept / decline actions),
    - the crates, team and keyword routes ([CratesRoute], [TeamRoute],
      [KeywordRoute]),
    - the owner settings workflow ([Settings]), whose controller is not part of
      the sources at hand and is modelled from the specification,
    - the copy notification of the Cargo.toml snippet ([CrateTomlCopy]) and
      the design service ([DesignService]).

    Asynchronous code is embedded in continuation order: a callback attached
    to a promise with [then] before an [await] on the same promise runs
    before the code after the [await]; the outcome of every request is an
    explicit argument. *)

From Stdlib Require Import Ascii String List Bool Arith Lia.
From stdpp Require Import base option list strings gmap fin_maps.
Import ListNotations.

Local Open Scope string_scope.

(** ** JavaScript values shared by all modules *)

Module JS.

(** A thrown or rejected value. [is_NotFoundError] is the outcome of
    [error instanceof NotFoundError]; [errors] is the optional [errors]
    array, each entry reduced to its [detail] string. *)
Record Error := mkError {
  error_name : string;
  is_NotFoundError : bool;
  errors : option (list string)
}.

(** The error raised by a property access on [undefined]. *)
Definition TypeError : Error :=
  {| error_name := "TypeError"; is_NotFoundError := false; errors := None |}.

(** Completion of a function body or of an awaited promise. *)
Inductive completion (A : Type) : Type :=
| Returned (a : A)
| Thrown (e : Error).
Arguments Returned {A} a.
Arguments Thrown {A} e.

(** Truthiness of a string that may be [null] / [undefined]. *)
Definition truthy_string (s : option string) : bool :=
  match s with
  | Some s => negb (String.eqb s "")
  | None => false
  end.

End JS.

(** ** The [prerelease] function of the semver package

    The version route imports [prerelease] from the semver package. The
    route is embedded over an arbitrary such function; the model below is
    used to evaluate the route on concrete version strings. It follows the
    strict grammar of the package
    ([v?MAJOR.MINOR.PATCH(-PRERELEASE)?(+BUILD)?]) without the trimming of
    white space and without the length and magnitude limits. *)

Module Semver.

Definition is_digit (c : ascii) : bool :=
  (48 <=? nat_of_ascii c)%nat && (nat_of_ascii c <=? 57)%nat.

Definition is_letter (c : ascii) : bool :=
  ((65 <=? nat_of_ascii c)%nat && (nat_of_ascii c <=? 90)%nat)
  || ((97 <=? nat_of_ascii c)%nat && (nat_of_ascii c <=? 122)%nat).

Definition is_ident_char (c : ascii) : bool :=
  is_digit c || is_letter c || Ascii.eqb c "-".

Fixpoint all_chars (p : ascii -> bool) (s : string) : bool :=
  match s with
  | EmptyString => true
  | String c s' => p c && all_chars p s'
  end.

(** [0|[1-9]\d*] *)
Definition is_numeric (s : string) : bool :=
  match s with
  | EmptyString => false
  | String "0" EmptyString => true
  | String c s' => is_digit c && negb (Ascii.eqb c "0") && all_chars is_digit s'
  end.

(** [[0-9A-Za-z-]+] *)
Definition is_build_ident (s : string) : bool :=
  negb (String.eqb s "") && all_chars is_ident_char s.

(** [0|[1-9]\d*|\d*[a-zA-Z-][a-zA-Z0-9-]*] *)
Definition is_prerelease_ident (s : string) : bool :=
  is_build_ident s && (is_numeric s || negb (all_chars is_digit s)).

(** The fields of [s] separated by [sep]; never the empty list. *)
Fixpoint split_on (sep : ascii) (s : string) : list string :=
  match s with
  | EmptyString => [EmptyString]
  | String c s' =>
      if Ascii.eqb c sep then EmptyString :: split_on sep s'
      else match split_on sep s' with
           | h :: t => String c h :: t
           | [] => [String c EmptyString]
           end
  end.

(** [s] cut at the first [sep]: the text before it and, when [sep]
    occurs, the text after it. *)
Fixpoint cut (sep : ascii) (s : string) : string * option string :=
  match s with
  | EmptyString => (EmptyString, None)
  | String c s' =>
      if Ascii.eqb c sep then (EmptyString, Some s')
      else let '(before, after) := cut sep s' in (String c before, after)
  end.

Definition strip_v (s : string) : string :=
  match s with
  | String "v" s' => s'
  | _ => s
  end.

(** The parsed prerelease identifiers of a valid version; [None] for a
    string that is not a version. *)
Definition parse_prerelease (version : string) : option (list string) :=
  let '(front, build) := cut "+" (strip_v version) in
  let '(main, pre) := cut "-" front in
  let build_ok :=
    match build with
    | Some b => forallb is_build_ident (split_on "." b)
    | None => true
    end in
  let main_ok :=
    match split_on "." main with
    | [major; minor; patch] => is_numeric major && is_numeric minor && is_numeric patch
    | _ => false
    end in
  let pre_ids :=
    match pre with
    | Some p => split_on "." p
    | None => []
    end in
  if build_ok && main_ok && forallb is_prerelease_ident pre_ids
  then Some pre_ids else None.

(** [prerelease(version)]: the prerelease identifiers when the version
    parses and has some, [null] otherwise. *)
Definition prerelease (version : string) : option (list string) :=
  match parse_prerelease version with
  | Some (id :: ids) => Some (id :: ids)
  | _ => None
  end.

End Semver.


(** ** The crate-version route *)

Module VersionRoute.
Import JS.

Record Version := mkVersion {
  num : string;
  yanked : bool;
  readme_path : option string
}.

(** The crate model, with its [versions] relationship already loaded, in
    collection order. *)
Record Crate := mkCrate {
  name : string;
  max_version : string;
  documentation : option string;
  readme : option string;
  versions : list Version
}.

Definition set_documentation (d : option string) (crate : Crate) : Crate :=
  {| name := name crate; max_version := max_version crate;
     documentation := d; readme := readme crate;
     versions := versions crate |}.

Definition set_readme (r : option string) (crate : Crate) : Crate :=
  {| name := name crate; max_version := max_version crate;
     documentation := documentation crate; readme := r;
     versions := versions crate |}.

(** The values [params.version_num] takes: absent, a string of the URL,
    or (in one branch of the fallback) a version record. *)
Inductive param :=
| PUndefined
| PStr (s : string)
| PVersion (v : Version).

Definition truthy (p : param) : bool :=
  match p with
  | PUndefined => false
  | PStr s => negb (String.eqb s "")
  | PVersion _ => true
  end.

(** [version.get('num') === p] *)
Definition num_is (p : param) (version : Version) : bool :=
  match p with
  | PStr s => String.eqb (num version) s
  | _ => false
  end.

(** [params.version_num === 'all' ? '' : params.version_num] *)
Definition requestedVersion (version_num : param) : param :=
  match version_num with
  | PStr s => if String.eqb s "all" then PStr "" else version_num
  | _ => version_num
  end.

(** The request to the build-status feed of docs.rs. *)
Record DocsRequest := mkDocsRequest {
  builds_url : string;
  docs_url : string
}.

(** Response of [fetch]: rejected, or a response with its [ok] flag and
    the outcome of reading its body with [text()]. *)
Inductive fetch_outcome :=
| FetchRejected
| FetchResponse (ok : bool) (text : option string).

(** What the model hook leaves behind when it completes. *)
Record Outcome := mkOutcome {
  version_num_after : param;
  docs_request : option DocsRequest;
  flash : list string;
  readme_request : option string;
  result : completion Version
}.

(** The network as seen by the route: the answer of the build-status
    feed (the [build_status] of each entry, [None] when the request
    fails) and the answer of [fetch]. *)
Record Network := mkNetwork {
  ajax_builds : string -> option (list bool);
  fetch : string -> fetch_outcome
}.

Section Route.

Variable prerelease : string -> option (list string).
(** String conversion of a version record inside a template literal. *)
Variable version_toString : Version -> string.

(** [version => !!prerelease(version)] *)
Definition isUnstableVersion (version : string) : bool :=
  match prerelease version with
  | Some _ => true
  | None => false
  end.

Definition show (p : param) : string :=
  match p with
  | PUndefined => "undefined"
  | PStr s => s
  | PVersion v => version_toString v
  end.

Definition is_stable_live (version : Version) : bool :=
  negb (isUnstableVersion (num version)) && negb (yanked version).

Definition is_live (version : Version) : bool := negb (yanked version).

(** The callback attached to [crate.get('versions')] when
    [max_version] is unstable: the new value of [params.version_num]. *)
Definition fallback_version_num (maxVersion : string) (versions : list Version)
  : param :=
  let latestStableVersion := find is_stable_live versions in
  match latestStableVersion with
  | None =>
      let latestUnyankedVersion := find is_live versions in
      (* the source tests [latestStableVersion == null] a second time *)
      match latestStableVersion with
      | None => PStr maxVersion
      | Some _ =>
          match latestUnyankedVersion with
          | Some v => PVersion v
          | None => PUndefined
          end
      end
  | Some v => PStr (num v)
  end.

(** [fetchCrateDocumentation]: the request issued, if any. *)
Definition fetchCrateDocumentation (crate : Crate) (version_num : param)
  : option DocsRequest :=
  if negb (truthy_string (documentation crate))
     || String.eqb (substring 0 16 (default "" (documentation crate)))
                   "https://docs.rs/"
  then Some {| builds_url := "https://docs.rs/crate/" +:+ name crate +:+ "/"
                              +:+ show version_num +:+ "/builds.json";
               docs_url := "https://docs.rs/" +:+ name crate +:+ "/"
                            +:+ show version_num +:+ "/" |}
  else None.

(** [a || b] on possibly undefined records. *)
Definition or_else {A} (a b : option A) : option A :=
  match a with
  | Some _ => a
  | None => b
  end.

(** The [model] hook. The writes to the controller and the request for
    the [following] flag do not take part in the selection and are left
    out. *)
Definition model (crate : Crate) (version_num : param) : Outcome :=
  let requestedVersion := requestedVersion version_num in
  let maxVersion := max_version crate in
  let version_num :=
    if negb (truthy requestedVersion) && negb (String.eqb maxVersion "0.0.0")
    then if isUnstableVersion maxVersion
         then fallback_version_num maxVersion (versions crate)
         else PStr maxVersion
    else version_num in
  let docs := fetchCrateDocumentation crate version_num in
  let versions := versions crate in
  let version := find (num_is version_num) versions in
  let flash :=
    if truthy version_num && negb (bool_decide (is_Some version))
    then ["Version '" +:+ show version_num +:+ "' of crate '"
          +:+ name crate +:+ "' does not exist"]
    else [] in
  let result :=
    or_else version
      (or_else (find (num_is (PStr maxVersion)) versions) (head versions)) in
  match result with
  | None =>
      (* [result.get] on [undefined] *)
      {| version_num_after := version_num; docs_request := docs;
         flash := flash; readme_request := None;
         result := Thrown TypeError |}
  | Some r =>
      {| version_num_after := version_num; docs_request := docs;
         flash := flash;
         readme_request :=
           if truthy_string (readme_path r) then readme_path r else None;
         result := Returned r |}
  end.

(** Completion of the build-status request. *)
Definition docs_settle (req : DocsRequest) (r : option (list bool))
  (crate : Crate) : Crate :=
  match r with
  | Some (true :: _) => set_documentation (Some (docs_url req)) crate
  | _ => crate
  end.

(** Completion of the README request: the [then] callback and the
    [catch] behind it. *)
Definition readme_settle (r : fetch_outcome) (crate : Crate) : Crate :=
  match r with
  | FetchResponse true (Some text) => set_readme (Some text) crate
  | FetchResponse true None => set_readme None crate
  | FetchResponse false _ => set_readme None crate
  | FetchRejected => set_readme None crate
  end.

(** The hook together with the completion of its two background
    requests: the value it resolves to, the flash queue and the crate
    afterwards. *)
Definition run (net : Network) (crate : Crate) (version_num : param)
  : completion Version * list string * Crate :=
  let o := model crate version_num in
  let crate :=
    match docs_request o with
    | Some req => docs_settle req (ajax_builds net (builds_url req)) crate
    | None => crate
    end in
  let crate :=
    match readme_request o with
    | Some path => readme_settle (fetch net path) crate
    | None => crate
    end in
  (result o, flash o, crate).

End Route.

(** [serialize(model)]: the value of the [version_num] key of the URL
    parameters of a version. *)
Definition serialize (model : Version) : param := PStr (num model).

(** The properties of the route's controller the hook writes. *)
Record Controller := mkController {
  controller_crate : option Crate;
  controller_requestedVersion : param;
  fetchingFollowing : bool;
  following : bool
}.

(** The hook's writes to the controller, with the request for the
    [following] flag settled: [currentUser] is the truthiness of
    [session.currentUser], [response] the [following] field of the
    answer, [None] when the request fails. Without a user no request is
    made, so neither the [then] nor the [finally] callback runs. *)
Definition set_up_controller (controller : Controller) (crate : Crate)
  (version_num : param) (currentUser : bool) (response : option bool)
  : Controller :=
  let controller :=
    {| controller_crate := Some crate;
       controller_requestedVersion := requestedVersion version_num;
       fetchingFollowing := true;
       following := following controller |} in
  if currentUser then
    let controller :=
      match response with
      | Some d_following =>
          {| controller_crate := controller_crate controller;
             controller_requestedVersion := controller_requestedVersion controller;
             fetchingFollowing := fetchingFollowing controller;
             following := d_following |}
      | None => controller
      end in
    {| controller_crate := controller_crate controller;
       controller_requestedVersion := controller_requestedVersion controller;
       fetchingFollowing := false;
       following := following controller |}
  else controller.

End VersionRoute.

(** ** The pending-invitation component *)

Module InviteRow.
Import JS.

(** The component's own properties. *)
Record Component := mkComponent {
  isAccepted : bool;
  isDeclined : bool;
  isError : bool;
  inviteError : string
}.

(** The invitation record: [accepted] is pending ([None]) until set. *)
Record Invite := mkInvite {
  accepted : option bool
}.

Definition initial : Component :=
  {| isAccepted := false; isDeclined := false; isError := false;
     inviteError := "default error message" |}.

Definition set_isAccepted (b : bool) (this : Component) : Component :=
  {| isAccepted := b; isDeclined := isDeclined this;
     isError := isError this; inviteError := inviteError this |}.

Definition set_isDeclined (b : bool) (this : Component) : Component :=
  {| isAccepted := isAccepted this; isDeclined := b;
     isError := isError this; inviteError := inviteError this |}.

Definition set_isError (b : bool) (this : Component) : Component :=
  {| isAccepted := isAccepted this; isDeclined := isDeclined this;
     isError := b; inviteError := inviteError this |}.

Definition set_inviteError (s : string) (this : Component) : Component :=
  {| isAccepted := isAccepted this; isDeclined := isDeclined this;
     isError := isError this; inviteError := s |}.

(** Outcome of [invite.save()]. *)
Inductive save_outcome :=
| Saved
| SaveFailed (error : Error).

(** The [catch] block shared in shape by both actions; [prefix] is the
    text of the action. [error.errors[0].detail] on an empty array is a
    property access on [undefined]. *)
Definition on_save_error (prefix : string) (error : Error) (this : Component)
  : completion unit * Component :=
  let this := set_isError true this in
  match errors error with
  | Some errs =>
      match errs with
      | detail :: _ =>
          (Returned tt, set_inviteError (prefix +:+ ": " +:+ detail) this)
      | [] => (Thrown TypeError, this)
      end
  | None => (Returned tt, set_inviteError prefix this)
  end.

Definition acceptInvitation (this : Component) (invite : Invite)
  (save : save_outcome) : completion unit * Component * Invite :=
  let invite := {| accepted := Some true |} in
  match save with
  | Saved => (Returned tt, set_isAccepted true this, invite)
  | SaveFailed error =>
      (on_save_error "Error in accepting invite" error this, invite)
  end.

Definition declineInvitation (this : Component) (invite : Invite)
  (save : save_outcome) : completion unit * Component * Invite :=
  let invite := {| accepted := Some false |} in
  match save with
  | Saved => (Returned tt, set_isDeclined true this, invite)
  | SaveFailed error =>
      (on_save_error "Error in declining invite" error this, invite)
  end.

(** The two actions under the name the specification gives them. *)
Definition respondToInvitation (accept : bool) (this : Component)
  (invite : Invite) (save : save_outcome)
  : completion unit * Component * Invite :=
  if accept then acceptInvitation this invite save
  else declineInvitation this invite save.

(** The text each action puts in front of its error message. *)
Definition error_prefix (accept : bool) : string :=
  if accept then "Error in accepting invite" else "Error in declining invite".

(** A user interaction: which action, and how the save went. *)
Record Invocation := mkInvocation {
  accept : bool;
  save : save_outcome
}.

(** One invocation on the component and its invitation; an exception
    ends the action but not the life of the component. *)
Definition step (st : Component * Invite) (i : Invocation)
  : Component * Invite :=
  let '(_, this, invite) := respondToInvitation (accept i) (fst st) (snd st) (save i) in
  (this, invite).

Definition steps (st : Component * Invite) (l : list Invocation)
  : Component * Invite :=
  fold_left step l st.

(** Whether a save went through. *)
Definition saved (s : save_outcome) : bool :=
  match s with
  | Saved => true
  | SaveFailed _ => false
  end.

End InviteRow.

(** ** The crates-listing route *)

Module CratesRoute.

(** A query-parameter object is a [gmap string (option string)]: a missing
    key reads as [undefined], the value [None] is [null]. *)

(** [!!v] for the value read from a key. *)
Definition truthy (v : option (option string)) : bool :=
  match v with
  | Some (Some s) => negb (String.eqb s "")
  | Some None => false
  | None => false
  end.

(** A call of [store.query]. *)
Record Query := mkQuery {
  model_name : string;
  query : gmap string (option string)
}.

Definition model (params : gmap string (option string)) : Query :=
  let params :=
    if negb (truthy (params !! "letter")) then delete "letter" params
    else params in
  {| model_name := "crate"; query := params |}.

End CratesRoute.

(** ** The team and keyword routes *)

Module Route.
Import JS.

(** What a model hook resolves to: a model, the transition returned by
    [replaceWith], or nothing. *)
Inductive resolved (M : Type) : Type :=
| Model (m : M)
| ReplaceWith (route : string)
| Undefined.
Arguments Model {M} m.
Arguments ReplaceWith {M} route.
Arguments Undefined {M}.

(** A hook's completion and the error notifications it raised. *)
Definition hook (M : Type) : Type := completion (resolved M) * list string.

End Route.

Module TeamRoute.
Import JS Route.

Record Params := mkParams {
  team_id : string;
  page : option string;
  sort : option string;
  include_yanked : option string
}.

Section Store.

Variables Team Crates : Type.
(** [team.get('id')] *)
Variable id : Team -> string.
(** [store.queryRecord('team', { team_id })] *)
Variable queryRecord : string -> completion Team.
(** [store.query('crate', params)] *)
Variable query : Params -> completion Crates.

(** The [catch] block. [e.errors.some] on a missing [errors] is a
    property access on [undefined]. *)
Definition on_error (e : Error) (params : Params) : hook (Crates * Team) :=
  match errors e with
  | None => (Thrown TypeError, [])
  | Some errs =>
      if existsb (fun detail => String.eqb detail "Not Found") errs
      then (Returned (ReplaceWith "index"),
            ["Team '" +:+ team_id params +:+ "' does not exist"])
      else (Returned Undefined, [])
  end.

Definition model (params : Params) : hook (Crates * Team) :=
  match queryRecord (team_id params) with
  | Returned team =>
      let params :=
        {| team_id := id team; page := page params; sort := sort params;
           include_yanked := Some "n" |} in
      match query params with
      | Returned crates => (Returned (Model (crates, team)), [])
      | Thrown e => on_error e params
      end
  | Thrown e => on_error e params
  end.

End Store.

End TeamRoute.

Module KeywordRoute.
Import JS Route.

Section Store.

Variable Keyword : Type.
(** [store.find('keyword', keyword_id)] *)
Variable find : string -> completion Keyword.

Definition model (keyword_id : string) : hook Keyword :=
  match find keyword_id with
  | Returned keyword => (Returned (Model keyword), [])
  | Thrown error =>
      if is_NotFoundError error
      then (Returned (ReplaceWith "index"),
            ["Keyword '" +:+ keyword_id +:+ "' does not exist"])
      else (Thrown error, [])
  end.

End Store.

End KeywordRoute.

(** ** The owner settings workflow

    The settings controller that adds and removes owners is not among the
    sources; only its acceptance tests are. The operations below follow
    section 4.2 of the specification and the message texts the tests
    assert. *)

Module Settings.

(** Modelled from the spec: the owner variants of the missing settings
    controller, a user identified by [login] or a team by [org] and
    [name]. *)
Inductive Owner :=
| User (login : string)
| Team (org name : string).

#[global] Instance Owner_eq_dec : EqDecision Owner.
Proof. solve_decision. Defined.

Inductive Notification :=
| Success (message : string)
| Failure (message : string).

(** Modelled from the spec: the backend's answer to a request of the
    missing settings controller, the transport status and the [errors]
    array of the payload (each entry reduced to its [detail]) when the
    payload carries one. *)
Record Response := mkResponse {
  transport_ok : bool;
  payload_errors : option (list string)
}.

(** Modelled from the spec: a request of the missing settings controller
    fails when the transport fails or when the payload carries structured
    errors, also under a success status. *)
Definition failed (r : Response) : bool :=
  negb (transport_ok r) || bool_decide (is_Some (payload_errors r)).

(** Modelled from the spec: the first structured error detail of the
    answer, for the messages of the missing settings controller. *)
Definition first_detail (r : Response) : option string :=
  match payload_errors r with
  | Some (detail :: _) => Some detail
  | _ => None
  end.

(** Modelled from the spec: how the missing settings controller names an
    owner in a failure message, by variant. *)
Definition subject (owner : Owner) : string :=
  match owner with
  | User login => "user " +:+ login
  | Team org name => "team " +:+ org +:+ "/" +:+ name
  end.

(** Modelled from the spec: the success message of [removeOwner] in the
    missing settings controller, by variant. *)
Definition removed_message (owner : Owner) : string :=
  match owner with
  | User login => "User " +:+ login +:+ " removed as crate owner"
  | Team org name => "Team " +:+ org +:+ "/" +:+ name +:+ " removed as crate owner"
  end.

Section Controller.

(** The texts used when a failure carries no structured detail; the
    specification leaves them open. *)
Variable generic_invite_error : string.
Variable generic_remove_error : Owner -> string.

(** Modelled from the spec: [addOwner] of the missing settings controller.
    It sends an invite and reports the outcome; the local owner list is
    the same afterwards in either case. *)
Definition addOwner (owners : list Owner) (name : string) (r : Response)
  : list Owner * Notification :=
  if failed r then
    match first_detail r with
    | Some detail => (owners, Failure ("Error sending invite: " +:+ detail))
    | None => (owners, Failure generic_invite_error)
    end
  else (owners, Success ("An invite has been sent to " +:+ name)).

(** Modelled from the spec: [removeOwner] of the missing settings
    controller. On success the owner leaves the local list; on failure the
    list is kept and the message names the owner by variant and embeds the
    first error detail. *)
Definition removeOwner (owners : list Owner) (owner : Owner) (r : Response)
  : list Owner * Notification :=
  if failed r then
    match first_detail r with
    | Some detail =>
        (owners,
         Failure ("Failed to remove the " +:+ subject owner
                  +:+ " as crate owner: " +:+ detail))
    | None => (owners, Failure (generic_remove_error owner))
    end
  else (filter (fun o => o ≠ owner) owners, Success (removed_message owner)).

End Controller.

End Settings.

(** ** The copy-to-clipboard notification of the Cargo.toml snippet *)

Module CrateTomlCopy.

Record Component := mkComponent {
  showSuccess : bool;
  showNotification : bool
}.

Definition initial : Component :=
  {| showSuccess := false; showNotification := false |}.

(** The component together with the run loop: [scheduled] counts the
    callbacks handed to [later] that have not run yet. All of them carry
    the same delay and the same body. *)
Record World := mkWorld {
  this : Component;
  scheduled : nat
}.

Definition toggleClipboardProps (isSuccess : bool) (w : World) : World :=
  {| this := {| showSuccess := isSuccess; showNotification := true |};
     scheduled := S (scheduled w) |}.

Definition copySuccess (w : World) : World := toggleClipboardProps true w.

Definition copyError (w : World) : World := toggleClipboardProps false w.

(** One scheduled callback runs: [this.showNotification = false]. Nothing
    runs when nothing is scheduled. *)
Definition later_callback (w : World) : World :=
  match scheduled w with
  | O => w
  | S n =>
      {| this := {| showSuccess := showSuccess (this w);
                    showNotification := false |};
         scheduled := n |}
  end.

Inductive event :=
| CopySuccess
| CopyError
| TimerElapsed.

Definition step (w : World) (e : event) : World :=
  match e with
  | CopySuccess => copySuccess w
  | CopyError => copyError w
  | TimerElapsed => later_callback w
  end.

Definition run (w : World) (l : list event) : World := fold_left step l w.

(** The outcome of the most recent copy in a trace, [d] without one. *)
Definition last_copy (d : bool) (l : list event) : bool :=
  fold_left (fun acc e =>
               match e with
               | CopySuccess => true
               | CopyError => false
               | TimerElapsed => acc
               end) l d.

End CrateTomlCopy.

(** ** The design service *)

Module DesignService.

Record Service := mkService {
  useNewDesign : bool;
  showToggleButton : bool
}.

(** [String(b)] *)
Definition String_of_bool (b : bool) : string :=
  if b then "true" else "false".

Section LocalStorage.

(** The local-storage helpers the service imports; their module is not
    among the sources. [getItem] answers [None] for [null]. *)
Variable Storage : Type.
Variable getItem : string -> Storage -> option string.
Variable setItem : string -> string -> Storage -> Storage.

(** The field initialisers: [isFastBoot] is [fastboot.isFastBoot],
    [environment] is [config.environment]. *)
Definition create (isFastBoot : bool) (environment : string)
  (storage : Storage) : Service :=
  {| useNewDesign :=
       negb isFastBoot
       && match getItem "use-new-design" storage with
          | Some v => String.eqb v "true"
          | None => false
          end;
     showToggleButton :=
       String.eqb environment "development" || String.eqb environment "test" |}.

Definition toggle (service : Service) (storage : Storage)
  : Service * Storage :=
  let service :=
    {| useNewDesign := negb (useNewDesign service);
       showToggleButton := showToggleButton service |} in
  (service,
   setItem "use-new-design" (String_of_bool (useNewDesign service)) storage).

End LocalStorage.

End DesignService.

(** ** Concrete crates, invitations and owners *)

Module Examples.
Import JS VersionRoute.

(** Conversion of a version record to a string; the route never reaches
    it. *)
Definition object_toString (v : Version) : string :=
  "<cargo@model:version::" +:+ num v +:+ ">".

Definition version (num : string) (yanked : bool) : Version :=
  {| num := num; yanked := yanked;
     readme_path := Some ("/readmes/" +:+ num +:+ ".html") |}.

Definition crate (max_version : string) (versions : list Version) : Crate :=
  {| name := "nanomsg"; max_version := max_version; documentation := None;
     readme := Some "an older readme"; versions := versions |}.

(** A beta on top of a yanked and a live stable release. *)
Definition crate_beta_over_stable : Crate :=
  crate "2.0.0-beta.1"
    [version "2.0.0-beta.1" false; version "1.1.0" true; version "1.0.0" false].

(** Two records carry the num 1.0.0, the first of them yanked. *)
Definition crate_repeated_num : Crate :=
  crate "2.0.0-beta.1"
    [version "2.0.0-beta.1" false; version "1.0.0" true; version "1.0.0" false].

(** Only prereleases, both live, in order of publication. *)
Definition crate_two_alphas : Crate :=
  crate "0.3.0-alpha" [version "0.2.0-alpha" false; version "0.3.0-alpha" false].

(** A crate whose version collection is empty. *)
Definition crate_without_versions : Crate := crate "0.0.0" [].

(** Stable releases only. *)
Definition crate_stable : Crate :=
  crate "1.1.0" [version "1.1.0" false; version "1.0.0" false].

Definition network (readme : fetch_outcome) : Network :=
  {| ajax_builds := fun _ => Some [true]; fetch := fun _ => readme |}.

(** A rejection without structured errors, as a network failure gives. *)
Definition network_failure : Error :=
  {| error_name := "Error"; is_NotFoundError := false; errors := None |}.

(** A rejection carrying structured errors. *)
Definition server_error (details : list string) : Error :=
  {| error_name := "ServerError"; is_NotFoundError := false;
     errors := Some details |}.

Definition pending_invite : InviteRow.Invite := {| InviteRow.accepted := None |}.

(** The owners of nanomsg in the settings tests. *)
Definition nanomsg_owners : list Settings.Owner :=
  [Settings.User "blabaere"; Settings.User "thehydroimpulse";
   Settings.Team "org" "blabaere"; Settings.Team "org" "thehydroimpulse"].

(** A success status whose payload carries a structured error. *)
Definition nope : Settings.Response :=
  {| Settings.transport_ok := true; Settings.payload_errors := Some ["nope"] |}.

Definition accepted_response : Settings.Response :=
  {| Settings.transport_ok := true; Settings.payload_errors := None |}.

Definition team_params : TeamRoute.Params :=
  {| TeamRoute.team_id := "github:org:crew"; TeamRoute.page := None;
     TeamRoute.sort := None; TeamRoute.include_yanked := None |}.

(** A crate that documents itself on its own site. *)
Definition crate_custom_docs : Crate :=
  {| name := "nanomsg"; max_version := "1.1.0";
     documentation := Some "https://nanomsg.org/documentation";
     readme := Some "an older readme";
     versions := [version "1.1.0" false; version "1.0.0" false] |}.

(** A crate whose only version has no README. *)
Definition crate_without_readme : Crate :=
  crate "1.0.0" [ {| num := "1.0.0"; yanked := false; readme_path := None |} ].

(** A crate with its only version yanked. *)
Definition crate_yanked : Crate := crate "0.0.0" [version "0.1.0" true].

(** A storage that keeps what is written: a finite map. *)
Definition map_getItem (key : string) (storage : gmap string string)
  : option string := storage !! key.

Definition map_setItem (key value : string) (storage : gmap string string)
  : gmap string string := <[key := value]> storage.

(** A store that finds the team under the id 42 and then answers the
    crates query with Not Found. *)
Definition team_found (team_id : string) : completion string := Returned "42".

Definition crates_not_found (params : TeamRoute.Params)
  : completion (list string) := Thrown (server_error ["Not Found"]).

End Examples.

(** * Properties *)

(** ** The crate-version route *)

Section VersionRouteProps.
Import JS VersionRoute.

Variable prerelease : string -> option (list string).
Variable version_toString : Version -> string.

(** The all-yanked sentinel is not a prerelease. *)
Hypothesis prerelease_sentinel : prerelease "0.0.0" = None.

Lemma truthy_requestedVersion_false p :
  truthy (requestedVersion p) = false ->
  p = PUndefined \/ p = PStr "" \/ p = PStr "all".
Proof.
  destruct p as [|s|v]; simpl; auto.
  - destruct (String.eqb_spec s "all") as [->|Hall]; auto.
    simpl. intros H. apply negb_false_iff, String.eqb_eq in H. subst s. auto.
  - discriminate.
Qed.

Lemma truthy_requestedVersion_true s :
  truthy (requestedVersion (PStr s)) = true ->
  s <> "" /\ s <> "all" /\ requestedVersion (PStr s) = PStr s.
Proof.
  simpl. destruct (String.eqb_spec s "all") as [->|Hall]; simpl.
  - discriminate.
  - intros H. apply negb_true_iff, String.eqb_neq in H. auto.
Qed.

(** Where nums are pairwise distinct, looking a record up by its own num
    gives the record back. *)
Lemma find_by_num_unique (l : list Version) v :
  List.NoDup (map num l) -> In v l -> find (num_is (PStr (num v))) l = Some v.
Proof.
  induction l as [|w l IH]; simpl; [tauto|].
  intros Hnd [->|Hin].
  - now rewrite String.eqb_refl.
  - inversion Hnd as [|? ? Hnotin Hnd']; subst.
    destruct (String.eqb_spec (num w) (num v)) as [Heq|Hne].
    + exfalso. apply Hnotin. rewrite Heq. now apply in_map.
    + now apply IH.
Qed.

(** Looking a num up finds some record carrying it as soon as one is in
    the collection. *)
Lemma find_by_num_some (l : list Version) v :
  In v l -> exists w, find (num_is (PStr (num v))) l = Some w /\ num w = num v /\ In w l.
Proof.
  induction l as [|x l IH]; simpl; [tauto|].
  intros Hin. destruct (String.eqb_spec (num x) (num v)) as [Heq|Hne].
  - exists x. auto.
  - destruct Hin as [->|Hin]; [congruence|].
    destruct (IH Hin) as (w & Hw & Hnum & Hinw). exists w. auto.
Qed.

Lemma find_by_num_none (l : list Version) s :
  (forall v, In v l -> num v <> s) -> find (num_is (PStr s)) l = None.
Proof.
  induction l as [|x l IH]; simpl; [reflexivity|].
  intros H. destruct (String.eqb_spec (num x) s) as [Heq|Hne].
  - exfalso. apply (H x); auto.
  - apply IH. intros v Hv. apply H. auto.
Qed.

(** With an empty request and an unstable [max_version], the hook sets
    [params.version_num] by the fallback callback. *)
Lemma version_num_after_unstable crate p :
  isUnstableVersion prerelease (max_version crate) = true ->
  truthy (requestedVersion p) = false ->
  version_num_after (model prerelease version_toString crate p)
  = fallback_version_num prerelease (max_version crate) (versions crate).
Proof.
  intros Hun Hreq. unfold model. rewrite Hreq, Hun. simpl.
  destruct (String.eqb_spec (max_version crate) "0.0.0") as [Heq|Hne].
  - exfalso. unfold isUnstableVersion in Hun.
    rewrite Heq, prerelease_sentinel in Hun. discriminate.
  - simpl. now destruct (or_else _ _).
Qed.

(** The value the hook resolves to, in terms of the final
    [params.version_num]. *)
Lemma result_model crate p :
  result (model prerelease version_toString crate p)
  = match or_else
            (find (num_is (version_num_after (model prerelease version_toString crate p)))
                  (versions crate))
            (or_else (find (num_is (PStr (max_version crate))) (versions crate))
                     (head (versions crate))) with
    | Some r => Returned r
    | None => Thrown TypeError
    end.
Proof.
  unfold model.
  set (vn := if negb (truthy (requestedVersion p)) && _ then _ else _).
  destruct (or_else (find (num_is vn) (versions crate)) _) as [r|] eqn:Hr;
    simpl; now rewrite Hr.
Qed.

(** With a request that is neither empty nor "all" the hook leaves
    [params.version_num] as it came. *)
Lemma version_num_after_requested crate p :
  truthy (requestedVersion p) = true ->
  version_num_after (model prerelease version_toString crate p) = p.
Proof.
  intros Hreq. unfold model. rewrite Hreq. simpl.
  now destruct (or_else _ _).
Qed.

(** The flash queue, in terms of the final [params.version_num]. *)
Lemma flash_model crate p :
  flash (model prerelease version_toString crate p)
  = let version_num := version_num_after (model prerelease version_toString crate p) in
    if truthy version_num
       && negb (bool_decide (is_Some (find (num_is version_num) (versions crate))))
    then ["Version '" +:+ show version_toString version_num +:+ "' of crate '"
          +:+ name crate +:+ "' does not exist"]
    else [].
Proof.
  unfold model.
  set (vn := if negb (truthy (requestedVersion p)) && _ then _ else _).
  now destruct (or_else (find (num_is vn) (versions crate)) _).
Qed.

(** Without a stable live version the fallback callback always answers
    [max_version]: the scan for a live version does not reach the
    outcome. *)
Lemma fallback_without_stable_live maxVersion (l : list Version) :
  find (is_stable_live prerelease) l = None ->
  fallback_version_num prerelease maxVersion l = PStr maxVersion.
Proof. intros H. unfold fallback_version_num. now rewrite H. Qed.

(** C1, for distinct nums: for a crate whose [max_version] is unstable,
    whose versions carry pairwise distinct nums and include one that is stable
    and not yanked, the hook called with an empty request (absent, empty
    or "all") resolves to the first stable, non-yanked version of the
    collection. *)
Theorem C1_unstable_max_selects_stable_live crate p v0 :
  isUnstableVersion prerelease (max_version crate) = true ->
  In v0 (versions crate) ->
  isUnstableVersion prerelease (num v0) = false ->
  yanked v0 = false ->
  truthy (requestedVersion p) = false ->
  List.NoDup (map num (versions crate)) ->
  exists v,
    result (model prerelease version_toString crate p) = Returned v
    /\ find (is_stable_live prerelease) (versions crate) = Some v
    /\ In v (versions crate)
    /\ isUnstableVersion prerelease (num v) = false
    /\ yanked v = false.
Proof.
  intros Hun Hin Hst Hlive Hreq Hnd.
  destruct (find (is_stable_live prerelease) (versions crate)) as [v|] eqn:Hfind.
  - destruct (find_some _ _ Hfind) as [Hv Hsl].
    unfold is_stable_live in Hsl. apply andb_true_iff in Hsl as [Hs Hy].
    apply negb_true_iff in Hs. apply negb_true_iff in Hy.
    exists v. split; [|auto].
    rewrite result_model, version_num_after_unstable by assumption.
    unfold fallback_version_num. rewrite Hfind.
    now rewrite (find_by_num_unique _ _ Hnd Hv).
  - exfalso. pose proof (find_none _ _ Hfind v0 Hin) as Hno.
    unfold is_stable_live in Hno. rewrite Hst, Hlive in Hno. discriminate.
Qed.

(** X9: without the distinctness of nums the selection is still stable: it
    carries the num of the first stable live version. *)
Lemma unstable_max_selects_stable_num crate p v0 :
  isUnstableVersion prerelease (max_version crate) = true ->
  find (is_stable_live prerelease) (versions crate) = Some v0 ->
  truthy (requestedVersion p) = false ->
  exists v,
    result (model prerelease version_toString crate p) = Returned v
    /\ num v = num v0
    /\ isUnstableVersion prerelease (num v) = false.
Proof.
  intros Hun Hfind Hreq.
  destruct (find_some _ _ Hfind) as [Hv Hsl].
  unfold is_stable_live in Hsl. apply andb_true_iff in Hsl as [Hs _].
  apply negb_true_iff in Hs.
  destruct (find_by_num_some _ _ Hv) as (w & Hw & Hnum & _).
  exists w. rewrite result_model, version_num_after_unstable by assumption.
  unfold fallback_version_num. rewrite Hfind, Hw. simpl.
  rewrite Hnum. auto.
Qed.

(** X8: what the hook does where C2 applies: [max_version] unstable, no
    stable live version, empty request. It resolves to the version
    matching [max_version], else to the first version, whether or not a
    live version exists. *)
Lemma unstable_max_without_stable_live crate p :
  isUnstableVersion prerelease (max_version crate) = true ->
  find (is_stable_live prerelease) (versions crate) = None ->
  truthy (requestedVersion p) = false ->
  version_num_after (model prerelease version_toString crate p)
  = PStr (max_version crate)
  /\ result (model prerelease version_toString crate p)
     = match or_else (find (num_is (PStr (max_version crate))) (versions crate))
                     (head (versions crate)) with
       | Some r => Returned r
       | None => Thrown TypeError
       end.
Proof.
  intros Hun Hfind Hreq.
  assert (Hvn : version_num_after (model prerelease version_toString crate p)
                = PStr (max_version crate)).
  { rewrite version_num_after_unstable by assumption.
    now apply fallback_without_stable_live. }
  split; [exact Hvn|].
  rewrite result_model, Hvn.
  now destruct (find (num_is (PStr (max_version crate))) (versions crate)).
Qed.

(** C3, for a non-empty collection: for a crate with at least one version
    and a requested version string that is non-empty, is not "all" and is
    the num of no version, the hook queues the warning and resolves to
    the version matching [max_version] if there is one, else to the first
    version. *)
Theorem C3_missing_version_warns_and_falls_back crate s :
  truthy (requestedVersion (PStr s)) = true ->
  (forall v, In v (versions crate) -> num v <> s) ->
  versions crate <> [] ->
  flash (model prerelease version_toString crate (PStr s))
  = ["Version '" +:+ s +:+ "' of crate '" +:+ name crate +:+ "' does not exist"]
  /\ exists v,
       result (model prerelease version_toString crate (PStr s)) = Returned v
       /\ In v (versions crate)
       /\ match find (num_is (PStr (max_version crate))) (versions crate) with
          | Some m => v = m
          | None => head (versions crate) = Some v
          end.
Proof.
  intros Hreq Hnone Hne.
  destruct (truthy_requestedVersion_true _ Hreq) as (Hs & Hall & Hrv).
  pose proof (find_by_num_none _ _ Hnone) as Hfind.
  assert (Htr : truthy (PStr s) = true) by (now rewrite <- Hrv).
  pose proof (version_num_after_requested crate (PStr s) Hreq) as Hvn.
  rewrite flash_model, result_model. cbv zeta. rewrite Hvn, Hfind, Htr. simpl.
  split; [reflexivity|].
  destruct (find (num_is (PStr (max_version crate))) (versions crate)) as [m|] eqn:Hm.
  - exists m. destruct (find_some _ _ Hm). auto.
  - destruct (versions crate) as [|x l] eqn:Hl; [congruence|].
    exists x. simpl. auto.
Qed.

(** C8: when the selected version has a readme path, the crate's readme
    after the fetch has settled is the fetched text if the response is
    successful and its body was read, and null after a non-success
    status, a failed body or a rejected fetch; the hook resolves to the
    same version whatever the fetch does. *)
Theorem C8_readme_follows_fetch net crate p v path :
  result (model prerelease version_toString crate p) = Returned v ->
  readme_path v = Some path ->
  path <> "" ->
  let '(res, _, crate') := run prerelease version_toString net crate p in
  res = Returned v
  /\ readme crate'
     = match fetch net path with
       | FetchResponse true (Some text) => Some text
       | _ => None
       end.
Proof.
  intros Hres Hpath Hne. unfold run.
  assert (Hreq : readme_request (model prerelease version_toString crate p) = Some path).
  { revert Hres. unfold model.
    destruct (or_else _ _) as [r|]; simpl; [|discriminate].
    intros [= ->]. rewrite Hpath. simpl.
    apply String.eqb_neq in Hne. now rewrite Hne. }
  rewrite Hreq. split; [exact Hres|].
  destruct (fetch net path) as [|[] [text|]]; reflexivity.
Qed.

End VersionRouteProps.

(** ** The pending-invitation component *)

Section InviteRowProps.
Import JS InviteRow.

Lemma on_save_error_flags prefix error this :
  let this' := snd (on_save_error prefix error this) in
  isAccepted this' = isAccepted this
  /\ isDeclined this' = isDeclined this
  /\ isError this' = true.
Proof.
  unfold on_save_error. destruct (errors error) as [[|detail errs]|]; simpl; auto.
Qed.

(** One invocation never lowers a flag. *)
Lemma step_flags st i :
  (isAccepted (fst st) = true -> isAccepted (fst (step st i)) = true)
  /\ (isDeclined (fst st) = true -> isDeclined (fst (step st i)) = true)
  /\ (isError (fst st) = true -> isError (fst (step st i)) = true).
Proof.
  destruct st as [this invite], i as [[] [|error]]; unfold step; simpl; auto.
  - pose proof (on_save_error_flags "Error in accepting invite" error this) as H.
    destruct (on_save_error _ error this) as [c this']; simpl in *.
    destruct H as (-> & -> & ->). auto.
  - pose proof (on_save_error_flags "Error in declining invite" error this) as H.
    destruct (on_save_error _ error this) as [c this']; simpl in *.
    destruct H as (-> & -> & ->). auto.
Qed.

(** C4, with the written value kept: when the save behind an accept or a
    decline fails with an error that has no [errors] array or a non-empty
    one, the action completes, the invitation's [accepted] field holds the value
    the action wrote (it is not restored), [isError] is set, the success
    flags are as before, and the message is the action's text followed by
    the first error detail, or the action's text alone without an array. *)
Theorem C4_failed_save_keeps_written_value accept this invite error :
  errors error <> Some [] ->
  let '(c, this', invite') :=
    respondToInvitation accept this invite (SaveFailed error) in
  c = Returned tt
  /\ accepted invite' = Some accept
  /\ isError this' = true
  /\ isAccepted this' = isAccepted this
  /\ isDeclined this' = isDeclined this
  /\ inviteError this'
     = match errors error with
       | Some (detail :: _) => error_prefix accept +:+ ": " +:+ detail
       | _ => error_prefix accept
       end.
Proof.
  intros Hne. unfold respondToInvitation, acceptInvitation, declineInvitation,
    on_save_error.
  destruct accept, (errors error) as [[|detail errs]|]; simpl; try congruence;
    repeat split; reflexivity.
Qed.

(** C9: through any sequence of accept and decline invocations, whatever
    their saves do, a flag that is set stays set; and after a failed
    invocation followed by a successful one, [isError] and one of the
    success flags are set together. *)
Theorem C9_flags_never_reset :
  (forall st l,
      (isAccepted (fst st) = true -> isAccepted (fst (steps st l)) = true)
      /\ (isDeclined (fst st) = true -> isDeclined (fst (steps st l)) = true)
      /\ (isError (fst st) = true -> isError (fst (steps st l)) = true))
  /\ (forall st first error retry,
         let this' :=
           fst (steps st [ {| accept := first; save := SaveFailed error |};
                           {| accept := retry; save := Saved |} ]) in
         isError this' = true
         /\ (if retry then isAccepted this' else isDeclined this') = true).
Proof.
  split.
  - intros st l. revert st. induction l as [|i l IH]; intros st; [auto|].
    unfold steps in *. simpl.
    destruct (step_flags st i) as (Ha & Hd & He).
    destruct (IH (step st i)) as (Ha' & Hd' & He'). auto.
  - intros [this invite] first error retry. unfold steps. simpl.
    unfold step at 2. simpl.
    pose proof (on_save_error_flags (error_prefix first) error this) as H.
    unfold error_prefix in H.
    destruct first; simpl;
      destruct (on_save_error _ error this) as [c this1]; simpl in *;
      destruct H as (_ & _ & He); destruct retry; simpl; auto.
Qed.

End InviteRowProps.

(** ** The crates-listing route *)

Section CratesRouteProps.
Import CratesRoute.

(** C10: the query of the crates route goes to the crate model; it has no
    [letter] key when [params.letter] is absent, null or empty, it has
    the same letter otherwise, and every other key reads as in
    [params]. *)
Theorem C10_blank_letter_dropped (params : gmap string (option string)) :
  let q := query (model params) in
  model_name (model params) = "crate"
  /\ (params !! "letter" = None \/ params !! "letter" = Some None
      \/ params !! "letter" = Some (Some "") ->
      q !! "letter" = None)
  /\ (forall s, params !! "letter" = Some (Some s) -> s <> "" ->
                q !! "letter" = Some (Some s))
  /\ (forall k, k <> "letter" -> q !! k = params !! k).
Proof.
  unfold model. simpl. split; [reflexivity|]. split; [|split].
  - intros [H|[H|H]]; rewrite H; simpl; apply lookup_delete_eq.
  - intros s H Hs. rewrite H. simpl.
    apply String.eqb_neq in Hs. rewrite Hs. simpl. exact H.
  - intros k Hk. destruct (truthy (params !! "letter")); simpl; [reflexivity|].
    now apply lookup_delete_ne.
Qed.

End CratesRouteProps.

(** ** The team and keyword routes *)

Section RouteProps.
Import JS Route.

Variables Team Crates Keyword : Type.
Variable id : Team -> string.
Variable queryRecord : string -> completion Team.
Variable query : TeamRoute.Params -> completion Crates.
Variable find : string -> completion Keyword.

(** The keyword route notifies and redirects on a NotFoundError and
    throws every other error on, unchanged. *)
Lemma keyword_model_policy keyword_id error :
  find keyword_id = Thrown error ->
  KeywordRoute.model Keyword find keyword_id
  = if is_NotFoundError error
    then (Returned (ReplaceWith "index"),
          ["Keyword '" +:+ keyword_id +:+ "' does not exist"])
    else (Thrown error, []).
Proof. intros H. unfold KeywordRoute.model. now rewrite H. Qed.

(** The team route, when the team lookup is rejected: a redirect on a
    "Not Found" detail, no result at all on other details, and a
    TypeError when the error has no [errors] array. The rejection itself
    is not thrown on. *)
Lemma team_model_on_rejection params error :
  queryRecord (TeamRoute.team_id params) = Thrown error ->
  TeamRoute.model Team Crates id queryRecord query params
  = match errors error with
    | None => (Thrown TypeError, [])
    | Some errs =>
        if existsb (fun detail => String.eqb detail "Not Found") errs
        then (Returned (ReplaceWith "index"),
              ["Team '" +:+ TeamRoute.team_id params +:+ "' does not exist"])
        else (Returned Undefined, [])
    end.
Proof. intros H. unfold TeamRoute.model, TeamRoute.on_error. now rewrite H. Qed.

End RouteProps.

(** ** The owner settings workflow *)

Section SettingsProps.
Import Settings.

Variable generic_invite_error : string.
Variable generic_remove_error : Owner -> string.

Lemma append_assoc (a b c : string) : (a +:+ b) +:+ c = a +:+ (b +:+ c).
Proof.
  induction a as [|x a IH]; [reflexivity|].
  change (String x ((a +:+ b) +:+ c) = String x (a +:+ (b +:+ c))).
  now rewrite IH.
Qed.

(** C5: a failed [removeOwner], also one whose transport succeeded but
    whose payload carries errors, leaves the local owner list as it was
    (same members, same count), and with a first error detail the message
    names the owner by variant and ends in that detail. *)
Theorem C5_failed_removal_keeps_owners owners owner r :
  failed r = true ->
  let '(owners', note) := removeOwner generic_remove_error owners owner r in
  owners' = owners
  /\ length owners' = length owners
  /\ (forall o, In o owners' <-> In o owners)
  /\ forall detail, first_detail r = Some detail ->
       note = Failure
                match owner with
                | User login =>
                    "Failed to remove the user " +:+ login
                    +:+ " as crate owner: " +:+ detail
                | Team org name =>
                    "Failed to remove the team " +:+ org +:+ "/" +:+ name
                    +:+ " as crate owner: " +:+ detail
                end.
Proof.
  intros Hf. unfold removeOwner. rewrite Hf.
  destruct (first_detail r) as [d|]; (repeat split; auto); try discriminate.
  intros detail [= ->]. destruct owner as [login|org name]; [reflexivity|].
  unfold subject. rewrite !append_assoc. reflexivity.
Qed.

(** C6: a successful [addOwner] leaves the local owner list as it was and
    reports "An invite has been sent to" followed by the invited name. *)
Theorem C6_invite_keeps_owners owners name r :
  failed r = false ->
  addOwner generic_invite_error owners name r
  = (owners, Success ("An invite has been sent to " +:+ name)).
Proof. intros Hf. unfold addOwner. now rewrite Hf. Qed.

End SettingsProps.

(** ** The properties on concrete inputs *)

Section Runs.
Import JS VersionRoute Examples.

Lemma semver_sentinel : Semver.prerelease "0.0.0" = None.
Proof. reflexivity. Qed.

(** C1 on a crate with a beta above a yanked and a live stable release:
    the empty request resolves to the live stable release. *)
Lemma C1_witness :
  exists v,
    result (model Semver.prerelease object_toString crate_beta_over_stable PUndefined)
    = Returned v
    /\ find (is_stable_live Semver.prerelease) (versions crate_beta_over_stable) = Some v
    /\ In v (versions crate_beta_over_stable)
    /\ isUnstableVersion Semver.prerelease (num v) = false
    /\ yanked v = false.
Proof.
  apply (C1_unstable_max_selects_stable_live Semver.prerelease object_toString
           semver_sentinel crate_beta_over_stable PUndefined (version "1.0.0" false)).
  - reflexivity.
  - simpl. auto.
  - reflexivity.
  - reflexivity.
  - reflexivity.
  - simpl. repeat constructor; simpl; intuition discriminate.
Defined.

(** C1 does not extend to a collection where two records carry the same
    num: the crate has a stable live 1.0.0, its [max_version] is a beta,
    and the empty request resolves to the yanked record of num 1.0.0 that
    comes first. *)
Lemma C1_counterexample :
  isUnstableVersion Semver.prerelease (max_version crate_repeated_num) = true
  /\ (exists v0, In v0 (versions crate_repeated_num)
                 /\ isUnstableVersion Semver.prerelease (num v0) = false
                 /\ yanked v0 = false)
  /\ truthy (requestedVersion (PStr "")) = false
  /\ exists v,
       result (model Semver.prerelease object_toString crate_repeated_num (PStr ""))
       = Returned v
       /\ yanked v = true.
Proof.
  split; [reflexivity|]. split.
  - exists (version "1.0.0" false). simpl. auto 6.
  - split; [reflexivity|]. exists (version "1.0.0" true). split; reflexivity.
Qed.

(** C2 does not hold of the hook: both versions are live prereleases and
    [max_version] is the second; the scan for a live version finds the
    first, and the empty request resolves to the second, the one matching
    [max_version]. *)
Theorem C2_live_scan_not_selected :
  isUnstableVersion Semver.prerelease (max_version crate_two_alphas) = true
  /\ find (is_stable_live Semver.prerelease) (versions crate_two_alphas) = None
  /\ find is_live (versions crate_two_alphas) = Some (version "0.2.0-alpha" false)
  /\ truthy (requestedVersion (PStr "")) = false
  /\ version_num_after
       (model Semver.prerelease object_toString crate_two_alphas (PStr ""))
     = PStr (max_version crate_two_alphas)
  /\ result (model Semver.prerelease object_toString crate_two_alphas (PStr ""))
     = Returned (version "0.3.0-alpha" false)
  /\ version "0.3.0-alpha" false <> version "0.2.0-alpha" false.
Proof. repeat split; try reflexivity. discriminate. Qed.

(** C3 on a crate of stable releases and the request 3.0.0. *)
Lemma C3_witness :
  flash (model Semver.prerelease object_toString crate_stable (PStr "3.0.0"))
  = ["Version '3.0.0' of crate 'nanomsg' does not exist"]
  /\ exists v,
       result (model Semver.prerelease object_toString crate_stable (PStr "3.0.0"))
       = Returned v
       /\ In v (versions crate_stable)
       /\ match find (num_is (PStr (max_version crate_stable))) (versions crate_stable) with
          | Some m => v = m
          | None => head (versions crate_stable) = Some v
          end.
Proof.
  apply (C3_missing_version_warns_and_falls_back Semver.prerelease object_toString
           crate_stable "3.0.0").
  - reflexivity.
  - simpl. intros v [<-|[<-|[]]]; discriminate.
  - discriminate.
Defined.

(** C3 does not extend to a crate without versions: the request 1.0.0
    matches no version, the warning is queued, and the hook throws
    instead of resolving to a version. *)
Lemma C3_counterexample :
  truthy (requestedVersion (PStr "1.0.0")) = true
  /\ (forall v, In v (versions crate_without_versions) -> num v <> "1.0.0")
  /\ flash (model Semver.prerelease object_toString crate_without_versions (PStr "1.0.0"))
     = ["Version '1.0.0' of crate 'nanomsg' does not exist"]
  /\ result (model Semver.prerelease object_toString crate_without_versions (PStr "1.0.0"))
     = Thrown TypeError.
Proof. repeat split; try reflexivity. intros v []. Qed.

(** C8 on a crate of stable releases whose README request is answered
    with a non-success status. *)
Lemma C8_witness :
  let '(res, _, crate') :=
    run Semver.prerelease object_toString (network (FetchResponse false (Some "Not Found")))
        crate_stable PUndefined in
  res = Returned (version "1.1.0" false)
  /\ readme crate'
     = match fetch (network (FetchResponse false (Some "Not Found"))) "/readmes/1.1.0.html" with
       | FetchResponse true (Some text) => Some text
       | _ => None
       end.
Proof.
  apply (C8_readme_follows_fetch Semver.prerelease object_toString
           (network (FetchResponse false (Some "Not Found")))
           crate_stable PUndefined (version "1.1.0" false) "/readmes/1.1.0.html").
  - reflexivity.
  - reflexivity.
  - discriminate.
Defined.

End Runs.

Section InviteRuns.
Import JS InviteRow Examples.

(** C4 on a pending invitation whose accept is rejected with a detail. *)
Lemma C4_witness :
  let '(c, this', invite') :=
    respondToInvitation true initial pending_invite
      (SaveFailed (server_error ["invite expired"])) in
  c = Returned tt
  /\ accepted invite' = Some true
  /\ isError this' = true
  /\ isAccepted this' = isAccepted initial
  /\ isDeclined this' = isDeclined initial
  /\ inviteError this'
     = match errors (server_error ["invite expired"]) with
       | Some (detail :: _) => error_prefix true +:+ ": " +:+ detail
       | _ => error_prefix true
       end.
Proof.
  apply (C4_failed_save_keeps_written_value true initial pending_invite
           (server_error ["invite expired"])).
  discriminate.
Defined.

(** C4 does not hold of the [accepted] field of a pending invitation:
    after an accept whose save is rejected, [accepted] is true and no
    longer pending. *)
Lemma C4_counterexample :
  let '(_, this', invite') :=
    acceptInvitation initial pending_invite (SaveFailed network_failure) in
  isError this' = true
  /\ accepted pending_invite = None
  /\ accepted invite' = Some true
  /\ accepted invite' <> accepted pending_invite.
Proof. simpl. repeat split. discriminate. Qed.

(** C9 on a rejected accept followed by a successful accept: the error
    flag set by the first invocation is still set after the second. *)
Lemma C9_witness :
  isError
    (fst (steps (step (initial, pending_invite)
                   {| accept := true; save := SaveFailed network_failure |})
            [ {| accept := true; save := Saved |} ])) = true.
Proof.
  destruct C9_flags_never_reset as [Hmono _].
  destruct (Hmono (step (initial, pending_invite)
                     {| accept := true; save := SaveFailed network_failure |})
              [ {| accept := true; save := Saved |} ]) as (_ & _ & He).
  apply He. reflexivity.
Defined.

End InviteRuns.

Section RouteRuns.
Import JS Route Examples.

(** C10 on the parameters of the first page of crates under letter a. *)
Lemma C10_witness :
  CratesRoute.query
    (CratesRoute.model (<["letter" := Some "a"]> (<["page" := Some "1"]> ∅)))
  !! "letter" = Some (Some "a").
Proof.
  destruct (C10_blank_letter_dropped
              (<["letter" := Some "a"]> (<["page" := Some "1"]> ∅)))
    as (_ & _ & Hkeep & _).
  apply Hkeep; [reflexivity | discriminate].
Defined.

(** C7 does not hold of the team route: the team lookup is rejected by a
    server error whose details do not include "Not Found". The team route
    resolves to nothing, without notification and without throwing the
    error on; the keyword route throws the same error on. *)
Theorem C7_team_route_drops_server_error :
  TeamRoute.model string (list string) (fun team => team)
    (fun _ => Thrown (server_error ["Internal Server Error"]))
    (fun _ => Returned []) team_params
  = (Returned Undefined, [])
  /\ KeywordRoute.model string
       (fun _ => Thrown (server_error ["Internal Server Error"])) "unknown"
     = (Thrown (server_error ["Internal Server Error"]), []).
Proof. split; reflexivity. Qed.

End RouteRuns.

Section SettingsRuns.
Import Settings Examples.

(** C5 on the settings scenario: removing the user thehydroimpulse is
    answered with a success status and the error "nope". *)
Lemma C5_witness :
  let '(owners', note) :=
    removeOwner (fun _ => "Failed to remove the owner") nanomsg_owners
      (User "thehydroimpulse") nope in
  owners' = nanomsg_owners
  /\ length owners' = length nanomsg_owners
  /\ (forall o, In o owners' <-> In o nanomsg_owners)
  /\ forall detail, first_detail nope = Some detail ->
       note = Failure ("Failed to remove the user " +:+ "thehydroimpulse"
                       +:+ " as crate owner: " +:+ detail).
Proof.
  apply (C5_failed_removal_keeps_owners (fun _ => "Failed to remove the owner")
           nanomsg_owners (User "thehydroimpulse") nope).
  reflexivity.
Defined.

(** The two error scenarios of the settings tests: four owners before and
    after, and the message of each variant. *)
Example remove_owner_error_scenarios :
  removeOwner (fun _ => "Failed to remove the owner") nanomsg_owners
    (User "thehydroimpulse") nope
  = (nanomsg_owners,
     Failure "Failed to remove the user thehydroimpulse as crate owner: nope")
  /\ removeOwner (fun _ => "Failed to remove the owner") nanomsg_owners
       (Team "org" "blabaere") nope
     = (nanomsg_owners,
        Failure "Failed to remove the team org/blabaere as crate owner: nope").
Proof. split; reflexivity. Qed.

(** The success scenario of the settings tests: one user owner and two
    team owners are left. *)
Example remove_owner_success_scenario :
  removeOwner (fun _ => "Failed to remove the owner") nanomsg_owners
    (User "thehydroimpulse") accepted_response
  = ([User "blabaere"; Team "org" "blabaere"; Team "org" "thehydroimpulse"],
     Success "User thehydroimpulse removed as crate owner").
Proof. reflexivity. Qed.

(** C6 on the settings scenario: inviting iain8. *)
Lemma C6_witness :
  addOwner "Error sending invite" nanomsg_owners "iain8" accepted_response
  = (nanomsg_owners, Success "An invite has been sent to iain8").
Proof.
  apply (C6_invite_keeps_owners "Error sending invite" nanomsg_owners "iain8"
           accepted_response).
  reflexivity.
Defined.

End SettingsRuns.

(** ** More on the crate-version route *)

Section VersionRouteMore.
Import JS VersionRoute.

Variable prerelease : string -> option (list string).
Variable version_toString : Version -> string.

(** The final [params.version_num], by the branch the hook takes. *)
Lemma version_num_after_model crate p :
  version_num_after (model prerelease version_toString crate p)
  = if negb (truthy (requestedVersion p))
       && negb (String.eqb (max_version crate) "0.0.0")
    then if isUnstableVersion prerelease (max_version crate)
         then fallback_version_num prerelease (max_version crate) (versions crate)
         else PStr (max_version crate)
    else p.
Proof. unfold model. now destruct (or_else _ _). Qed.

Lemma docs_request_model crate p :
  docs_request (model prerelease version_toString crate p)
  = fetchCrateDocumentation version_toString crate
      (version_num_after (model prerelease version_toString crate p)).
Proof. unfold model. now destruct (or_else _ _). Qed.

Lemma readme_request_model crate p :
  readme_request (model prerelease version_toString crate p)
  = match result (model prerelease version_toString crate p) with
    | Returned r => if truthy_string (readme_path r) then readme_path r else None
    | Thrown _ => None
    end.
Proof. unfold model. now destruct (or_else _ _). Qed.





Lemma requested_version_resolves crate s v :
  truthy (requestedVersion (PStr s)) = true ->
  find (num_is (PStr s)) (versions crate) = Some v ->
  result (model prerelease version_toString crate (PStr s)) = Returned v
  /\ flash (model prerelease version_toString crate (PStr s)) = []
  /\ version_num_after (model prerelease version_toString crate (PStr s)) = PStr s
  /\ serialize v = PStr s.
Proof.
  intros Hreq Hfind.
  pose proof (version_num_after_requested prerelease version_toString crate _ Hreq) as Hvn.
  rewrite flash_model, result_model. cbv zeta. rewrite Hvn, Hfind. simpl.
  rewrite andb_false_r. repeat split.
  apply find_some in Hfind as [_ Hnum]. simpl in Hnum.
  apply String.eqb_eq in Hnum. unfold serialize. now rewrite Hnum.
Qed.

(** X2: a request that is neither empty nor "all" and is the num of a version
    resolves to the first version of that num, yanked or not, without a
    warning and without touching [params.version_num]; serializing the
    result gives the request back. *)
Theorem requested_version_found crate s v :
  truthy (requestedVersion (PStr s)) = true ->
  find (num_is (PStr s)) (versions crate) = Some v ->
  result (model prerelease version_toString crate (PStr s)) = Returned v
  /\ flash (model prerelease version_toString crate (PStr s)) = []
  /\ version_num_after (model prerelease version_toString crate (PStr s)) = PStr s
  /\ serialize v = PStr s.
Proof. apply requested_version_resolves. Qed.

(** X3: where nums are pairwise distinct, the hook is a left inverse of
    [serialize] on the versions of the crate whose num is neither empty
    nor "all": no warning is queued either. *)
Theorem model_serialize_round_trip crate v :
  In v (versions crate) ->
  List.NoDup (map num (versions crate)) ->
  num v <> "" ->
  num v <> "all" ->
  result (model prerelease version_toString crate (serialize v)) = Returned v
  /\ flash (model prerelease version_toString crate (serialize v)) = [].
Proof.
  intros Hin Hnd Hne Hall.
  assert (Hreq : truthy (requestedVersion (PStr (num v))) = true).
  { simpl. apply String.eqb_neq in Hall. rewrite Hall. simpl.
    apply String.eqb_neq in Hne. now rewrite Hne. }
  destruct (requested_version_resolves crate (num v) v Hreq
              (find_by_num_unique version_toString _ _ Hnd Hin)) as (Hr & Hf & _).
  unfold serialize. auto.
Qed.

(** X4: with an empty request and a stable [max_version] other than the
    sentinel, [params.version_num] becomes [max_version]. If a version
    carries that num the hook resolves to the first such without a
    warning; if none does, it warns about [max_version] (unless that is
    the empty string) and resolves to the first version. *)
Theorem stable_max_version_selected crate p :
  isUnstableVersion prerelease (max_version crate) = false ->
  max_version crate <> "0.0.0" ->
  truthy (requestedVersion p) = false ->
  version_num_after (model prerelease version_toString crate p)
  = PStr (max_version crate)
  /\ match find (num_is (PStr (max_version crate))) (versions crate) with
     | Some m =>
         result (model prerelease version_toString crate p) = Returned m
         /\ flash (model prerelease version_toString crate p) = []
     | None =>
         result (model prerelease version_toString crate p)
         = match head (versions crate) with
           | Some x => Returned x
           | None => Thrown TypeError
           end
         /\ flash (model prerelease version_toString crate p)
            = if String.eqb (max_version crate) "" then []
              else ["Version '" +:+ max_version crate +:+ "' of crate '"
                    +:+ name crate +:+ "' does not exist"]
     end.
Proof.
  intros Hst Hne Hreq.
  assert (Hvn : version_num_after (model prerelease version_toString crate p)
                = PStr (max_version crate)).
  { rewrite version_num_after_model, Hreq, Hst.
    apply String.eqb_neq in Hne. now rewrite Hne. }
  split; [exact Hvn|].
  rewrite flash_model, result_model. cbv zeta. rewrite Hvn.
  destruct (find (num_is (PStr (max_version crate))) (versions crate)) as [m|].
  - simpl. now rewrite andb_false_r.
  - simpl. rewrite andb_true_r.
    split; [reflexivity|]. now destruct (String.eqb (max_version crate) "").
Qed.

(** X5: on a crate whose [max_version] is the sentinel 0.0.0 the request
    "all" is not replaced: unless a version is named "all", the hook
    warns that version 'all' does not exist, and resolves to a version of
    num 0.0.0 if there is one, else to the first version. *)
Theorem all_request_on_yanked_crate_warns crate :
  max_version crate = "0.0.0" ->
  (forall v, In v (versions crate) -> num v <> "all") ->
  version_num_after (model prerelease version_toString crate (PStr "all"))
  = PStr "all"
  /\ flash (model prerelease version_toString crate (PStr "all"))
     = ["Version 'all' of crate '" +:+ name crate +:+ "' does not exist"]
  /\ result (model prerelease version_toString crate (PStr "all"))
     = match or_else (find (num_is (PStr "0.0.0")) (versions crate))
                     (head (versions crate)) with
       | Some r => Returned r
       | None => Thrown TypeError
       end.
Proof.
  intros Hmax Hnone.
  assert (Hvn : version_num_after (model prerelease version_toString crate (PStr "all"))
                = PStr "all").
  { rewrite version_num_after_model, Hmax. reflexivity. }
  rewrite flash_model, result_model. cbv zeta.
  rewrite Hvn, (find_by_num_none _ _ Hnone), Hmax. simpl. auto.
Qed.

(** X6: on a crate whose [max_version] is the sentinel 0.0.0, an absent
    request queues no warning and resolves to a version of num 0.0.0 if
    there is one, else to the first version. *)
Theorem absent_request_on_yanked_crate crate :
  max_version crate = "0.0.0" ->
  flash (model prerelease version_toString crate PUndefined) = []
  /\ result (model prerelease version_toString crate PUndefined)
     = match or_else (find (num_is (PStr "0.0.0")) (versions crate))
                     (head (versions crate)) with
       | Some r => Returned r
       | None => Thrown TypeError
       end.
Proof.
  intros Hmax.
  assert (Hvn : version_num_after (model prerelease version_toString crate PUndefined)
                = PUndefined).
  { rewrite version_num_after_model, Hmax. reflexivity. }
  rewrite flash_model, result_model. cbv zeta. rewrite Hvn, Hmax. simpl.
  split; [reflexivity|].
  assert (Hf : find (num_is PUndefined) (versions crate) = None).
  { induction (versions crate) as [|x l IH]; simpl; auto. }
  now rewrite Hf.
Qed.

(** X7: the hook never leaves a version record in [params.version_num]: the
    final value is the one it was given, or [max_version], or the num of
    a stable, non-yanked version of the crate. *)
Theorem version_num_after_cases crate p :
  version_num_after (model prerelease version_toString crate p) = p
  \/ version_num_after (model prerelease version_toString crate p)
     = PStr (max_version crate)
  \/ exists v, In v (versions crate)
               /\ is_stable_live prerelease v = true
               /\ version_num_after (model prerelease version_toString crate p)
                  = PStr (num v).
Proof.
  rewrite version_num_after_model.
  destruct (negb (truthy (requestedVersion p)) && _); [|auto].
  destruct (isUnstableVersion prerelease (max_version crate)); [|auto].
  unfold fallback_version_num.
  destruct (find (is_stable_live prerelease) (versions crate)) as [v|] eqn:H; [|auto].
  apply find_some in H as [Hin Hsl]. right. right. exists v. auto.
Qed.

End VersionRouteMore.

(** ** The background requests of the crate-version route *)

Section VersionRouteEffects.
Import JS VersionRoute.

Variable prerelease : string -> option (list string).
Variable version_toString : Version -> string.

Lemma docs_settle_readme req r crate :
  readme (docs_settle req r crate) = readme crate.
Proof. destruct r as [[|[] ?]|]; reflexivity. Qed.

Lemma readme_settle_documentation r crate :
  documentation (readme_settle r crate) = documentation crate.
Proof. destruct r as [|[] [|]]; reflexivity. Qed.

Lemma readme_settle_readme r crate crate' :
  readme (readme_settle r crate) = readme (readme_settle r crate').
Proof. destruct r as [|[] [|]]; reflexivity. Qed.

(** The crate after the hook and its background requests, field by
    field. *)
Lemma run_crate net crate p :
  let o := model prerelease version_toString crate p in
  let crate' := snd (run prerelease version_toString net crate p) in
  documentation crate'
  = match docs_request o with
    | Some req =>
        documentation (docs_settle req (ajax_builds net (builds_url req)) crate)
    | None => documentation crate
    end
  /\ readme crate'
     = match readme_request o with
       | Some path => readme (readme_settle (fetch net path) crate)
       | None => readme crate
       end.
Proof.
  unfold run. simpl. split.
  - destruct (readme_request _) as [path|], (docs_request _) as [req|];
      rewrite ?readme_settle_documentation; reflexivity.
  - destruct (readme_request _) as [path|], (docs_request _) as [req|];
      rewrite ?docs_settle_readme; try reflexivity.
    apply readme_settle_readme.
Qed.

(** X10: a documentation link that is set and is not on docs.rs is never
    replaced: no build-status request is made and the link is the same
    after the hook, whatever the network answers. *)
Theorem custom_documentation_kept net crate p link :
  documentation crate = Some link ->
  link <> "" ->
  substring 0 16 link <> "https://docs.rs/" ->
  docs_request (model prerelease version_toString crate p) = None
  /\ documentation (snd (run prerelease version_toString net crate p))
     = Some link.
Proof.
  intros Hdoc Hne Hpre.
  assert (Hreq : docs_request (model prerelease version_toString crate p) = None).
  { rewrite docs_request_model. unfold fetchCrateDocumentation.
    rewrite Hdoc. simpl.
    apply String.eqb_neq in Hne. rewrite Hne.
    apply String.eqb_neq in Hpre. now rewrite Hpre. }
  split; [exact Hreq|].
  destruct (run_crate net crate p) as [Hd _]. cbv zeta in Hd.
  now rewrite Hd, Hreq.
Qed.

(** X11: the documentation link changes only when the build-status feed
    answers with a first entry whose build succeeded, and then to the
    docs.rs page of the crate name and the final [params.version_num]. *)
Theorem documentation_set_only_after_build net crate p :
  let o := model prerelease version_toString crate p in
  let crate' := snd (run prerelease version_toString net crate p) in
  documentation crate' = documentation crate
  \/ (exists rest,
         ajax_builds net
           ("https://docs.rs/crate/" +:+ name crate +:+ "/"
            +:+ show version_toString (version_num_after o) +:+ "/builds.json")
         = Some (true :: rest))
     /\ documentation crate'
        = Some ("https://docs.rs/" +:+ name crate +:+ "/"
                +:+ show version_toString (version_num_after o) +:+ "/").
Proof.
  cbv zeta. destruct (run_crate net crate p) as [Hd _]. cbv zeta in Hd.
  rewrite Hd, docs_request_model. unfold fetchCrateDocumentation.
  destruct (negb _ || _); [|auto]. simpl.
  destruct (ajax_builds net _) as [[|[] rest]|] eqn:Hb; simpl; auto.
  right. split; [|reflexivity]. exists rest. reflexivity.
Qed.

(** X12: when the selected version has no README path, no README is fetched
    and the crate keeps the README it had, also one of another
    version. *)
Theorem readme_kept_without_path net crate p v :
  result (model prerelease version_toString crate p) = Returned v ->
  truthy_string (readme_path v) = false ->
  readme_request (model prerelease version_toString crate p) = None
  /\ readme (snd (run prerelease version_toString net crate p)) = readme crate.
Proof.
  intros Hres Hpath.
  assert (Hreq : readme_request (model prerelease version_toString crate p) = None).
  { now rewrite readme_request_model, Hres, Hpath. }
  split; [exact Hreq|].
  destruct (run_crate net crate p) as [_ Hr]. cbv zeta in Hr.
  now rewrite Hr, Hreq.
Qed.

(** X13: after the hook's writes to the controller and the settling of the
    [following] request, [fetchingFollowing] is cleared exactly when a
    user is logged in; [following] takes the answer when there is a user
    and the request succeeds and is kept otherwise; the requested
    version shown is the request with "all" read as empty. *)
Theorem controller_after_hook controller crate p currentUser response :
  let c := set_up_controller controller crate p currentUser response in
  fetchingFollowing c = negb currentUser
  /\ following c
     = (if currentUser then default (following controller) response
        else following controller)
  /\ controller_requestedVersion c = requestedVersion p.
Proof.
  unfold set_up_controller.
  destruct currentUser, response; simpl; repeat split.
Qed.

End VersionRouteEffects.

(** ** More on the pending-invitation component *)

Section InviteRowMore.
Import JS InviteRow.

Lemma respond_flags accept this invite s :
  let '(_, this', invite') := respondToInvitation accept this invite s in
  isAccepted this' = isAccepted this || (accept && saved s)
  /\ isDeclined this' = isDeclined this || (negb accept && saved s)
  /\ isError this' = isError this || negb (saved s)
  /\ accepted invite' = Some accept
  /\ (saved s = true -> inviteError this' = inviteError this).
Proof.
  destruct accept, s as [|error]; simpl;
    rewrite ?orb_false_r, ?orb_true_r; auto 6;
    pose proof (on_save_error_flags (error_prefix true) error this) as Ht;
    pose proof (on_save_error_flags (error_prefix false) error this) as Hf;
    simpl in Ht, Hf.
  - destruct (on_save_error _ error this) as [c this']; simpl in *.
    destruct Ht as (-> & -> & ->). repeat split; auto. discriminate.
  - destruct (on_save_error "Error in declining invite" error this) as [c this'];
      simpl in *.
    destruct Hf as (-> & -> & ->). repeat split; auto. discriminate.
Qed.

(** X14: after any sequence of invocations, [isAccepted] is set exactly if it
    was set before or some accept was saved, [isDeclined] exactly if it
    was set before or some decline was saved, and [isError] exactly if it
    was set before or some save failed. *)
Theorem flags_after_steps st l :
  let this' := fst (steps st l) in
  isAccepted this'
  = isAccepted (fst st) || existsb (fun i => accept i && saved (save i)) l
  /\ isDeclined this'
     = isDeclined (fst st) || existsb (fun i => negb (accept i) && saved (save i)) l
  /\ isError this'
     = isError (fst st) || existsb (fun i => negb (saved (save i))) l.
Proof.
  revert st. induction l as [|i l IH]; intros st; simpl.
  - now rewrite !orb_false_r.
  - unfold steps in *. simpl. destruct (IH (step st i)) as (-> & -> & ->).
    destruct st as [this invite], i as [a s]. unfold step. simpl.
    pose proof (respond_flags a this invite s) as H.
    destruct (respondToInvitation a this invite s) as [[c this'] invite']. simpl.
    destruct H as (-> & -> & -> & _). now rewrite !orb_assoc.
Qed.

(** X15: after a sequence of invocations, the [accepted] field of the
    invitation is the value of the last invocation, whether or not its
    save went through. *)
Theorem accepted_is_last_attempt st l i :
  accepted (snd (steps st (l ++ [i]))) = Some (accept i).
Proof.
  unfold steps. rewrite fold_left_app. simpl.
  destruct (fold_left step l st) as [this invite], i as [a s]. unfold step. simpl.
  pose proof (respond_flags a this invite s) as H.
  destruct (respondToInvitation a this invite s) as [[c this'] invite']. simpl.
  now destruct H as (_ & _ & _ & -> & _).
Qed.

(** X16: while every save goes through, the error message is not written: it
    is the one the component had, also after an earlier failure. *)
Theorem inviteError_kept_while_saved st l :
  forallb (fun i => saved (save i)) l = true ->
  inviteError (fst (steps st l)) = inviteError (fst st).
Proof.
  revert st. induction l as [|i l IH]; intros st; simpl; [reflexivity|].
  intros H. apply andb_true_iff in H as [Hi Hl].
  unfold steps in *. simpl. rewrite (IH _ Hl).
  destruct st as [this invite], i as [a s]. unfold step. simpl in *.
  pose proof (respond_flags a this invite s) as H.
  destruct (respondToInvitation a this invite s) as [[c this'] invite']. simpl.
  destruct H as (_ & _ & _ & _ & H). now apply H.
Qed.

(** X17: a save rejected with an empty [errors] array makes either action
    throw a TypeError after [isError] is set: the error message is not
    written, and [accepted] holds the value the action wrote. *)
Theorem empty_errors_array_throws accept this invite error :
  errors error = Some [] ->
  respondToInvitation accept this invite (SaveFailed error)
  = (Thrown TypeError, set_isError true this, {| accepted := Some accept |}).
Proof.
  intros H. unfold respondToInvitation, acceptInvitation, declineInvitation,
    on_save_error.
  rewrite H. now destruct accept.
Qed.

End InviteRowMore.

(** ** The copy notification *)

Section CrateTomlCopyProps.
Import CrateTomlCopy.

(** X18: while the notification shows, a callback that hides it is
    scheduled: a notification never stays for lack of a timer. *)
Theorem notification_has_timer l :
  let w := run {| this := initial; scheduled := 0 |} l in
  showNotification (this w) = true -> 0 < scheduled w.
Proof.
  cbv zeta.
  assert (Hinv : forall w,
             (showNotification (this w) = true -> 0 < scheduled w) ->
             showNotification (this (run w l)) = true -> 0 < scheduled (run w l)).
  { induction l as [|e l IH]; intros w Hw; [exact Hw|].
    unfold run in *. simpl. apply IH.
    destruct e; simpl; try lia.
    unfold later_callback.
    destruct (scheduled w) eqn:E; simpl; [rewrite E; exact Hw|discriminate]. }
  apply Hinv. simpl. discriminate.
Qed.

(** X19: [showSuccess] is the outcome of the most recent copy; the timers do
    not change it. *)
Theorem showSuccess_is_last_copy w l :
  showSuccess (this (run w l)) = last_copy (showSuccess (this w)) l.
Proof.
  revert w. induction l as [|e l IH]; intros w; [reflexivity|].
  unfold run, last_copy in *. simpl. rewrite IH.
  destruct e; simpl; try reflexivity.
  unfold later_callback. now destruct (scheduled w).
Qed.

(** X20: the timer of an earlier copy hides the notification of a later one:
    after two copies and one elapsed timer the notification is hidden
    while the timer of the second copy is still scheduled. *)
Theorem earlier_timer_hides_later_copy w first second :
  let w' :=
    later_callback (toggleClipboardProps second (toggleClipboardProps first w)) in
  showNotification (this w') = false
  /\ showSuccess (this w') = second
  /\ scheduled w' = S (scheduled w).
Proof. repeat split. Qed.

End CrateTomlCopyProps.

(** ** The design service *)

Section DesignServiceProps.
Import DesignService.

Variable Storage : Type.
Variable getItem : string -> Storage -> option string.
Variable setItem : string -> string -> Storage -> Storage.

(** Reading a key gives what was last written under it. *)
Hypothesis getItem_setItem :
  forall key value storage, getItem key (setItem key value storage) = Some value.

(** X21: the choice made with [toggle] is persisted: a service created in the
    browser over the storage left by [toggle] starts with the toggled
    design; a service created in FastBoot starts with the old design
    whatever the storage holds. *)
Theorem toggle_persists service storage environment :
  let '(service', storage') := toggle Storage setItem service storage in
  useNewDesign (create Storage getItem false environment storage')
  = useNewDesign service'
  /\ useNewDesign service' = negb (useNewDesign service)
  /\ useNewDesign (create Storage getItem true environment storage') = false.
Proof.
  unfold toggle, create. simpl. rewrite getItem_setItem.
  now destruct (useNewDesign service).
Qed.

(** X22: toggling twice gives the service back. *)
Theorem toggle_twice service storage :
  fst (toggle Storage setItem
         (fst (toggle Storage setItem service storage))
         (snd (toggle Storage setItem service storage)))
  = service.
Proof. destruct service as [[] ?]; reflexivity. Qed.

End DesignServiceProps.

(** ** More on the crates, team and keyword routes *)

Section RoutesMore.
Import JS Route.

Variables Team Crates Keyword : Type.
Variable id : Team -> string.
Variable queryRecord : string -> completion Team.
Variable query : TeamRoute.Params -> completion Crates.
Variable find : string -> completion Keyword.

(** X23: applying the crates route to its own query changes nothing, and the
    query is a part of the parameters: no key is added or rewritten. *)
Theorem crates_model_idempotent (params : gmap string (option string)) :
  CratesRoute.model (CratesRoute.query (CratesRoute.model params))
  = CratesRoute.model params
  /\ CratesRoute.query (CratesRoute.model params) ⊆ params.
Proof.
  unfold CratesRoute.model. simpl.
  destruct (CratesRoute.truthy (params !! "letter")) eqn:H; simpl.
  - now rewrite H.
  - rewrite lookup_delete_eq. simpl. rewrite delete_delete_eq.
    split; [reflexivity|]. apply delete_subseteq.
Qed.

(** X24: the query of the crates route never carries a null or empty letter,
    which the backend rejects. *)
Theorem crates_query_letter_never_blank (params : gmap string (option string)) :
  let q := CratesRoute.query (CratesRoute.model params) in
  q !! "letter" = None
  \/ exists s, q !! "letter" = Some (Some s) /\ s <> "".
Proof.
  unfold CratesRoute.model. simpl.
  destruct (params !! "letter") as [[s|]|] eqn:H; simpl;
    try (left; apply lookup_delete_eq).
  destruct (String.eqb_spec s "") as [->|Hs]; simpl.
  - left. apply lookup_delete_eq.
  - right. exists s. auto.
Qed.

Lemma team_on_error_outcomes e params :
  match TeamRoute.on_error Team Crates e params with
  | (Thrown e', notes) => e' = TypeError /\ notes = []
  | (Returned (ReplaceWith route), notes) =>
      route = "index"
      /\ exists team_id, notes = ["Team '" +:+ team_id +:+ "' does not exist"]
  | (Returned _, notes) => notes = []
  end.
Proof.
  unfold TeamRoute.on_error. destruct (errors e) as [errs|]; [|auto].
  destruct (existsb _ errs); eauto.
Qed.

(** X25: the team route never passes an error of the store on: it throws a
    TypeError or nothing. It notifies exactly when it redirects, to the
    index route, and then with one message. *)
Theorem team_hook_outcomes params :
  match TeamRoute.model Team Crates id queryRecord query params with
  | (Thrown e, notes) => e = TypeError /\ notes = []
  | (Returned (ReplaceWith route), notes) =>
      route = "index"
      /\ exists team_id, notes = ["Team '" +:+ team_id +:+ "' does not exist"]
  | (Returned _, notes) => notes = []
  end.
Proof.
  unfold TeamRoute.model.
  destruct (queryRecord (TeamRoute.team_id params)) as [team|e].
  - destruct (query _) as [crates|e]; [reflexivity|].
    apply team_on_error_outcomes.
  - apply team_on_error_outcomes.
Qed.

(** X26: when the team was found and the crates query is then rejected with a
    "Not Found" detail, the notification names the id of the team record,
    which has replaced the id of the URL in [params]. *)
Theorem team_notification_names_record_id params team e errs :
  queryRecord (TeamRoute.team_id params) = Returned team ->
  query {| TeamRoute.team_id := id team; TeamRoute.page := TeamRoute.page params;
           TeamRoute.sort := TeamRoute.sort params;
           TeamRoute.include_yanked := Some "n" |} = Thrown e ->
  errors e = Some errs ->
  In "Not Found" errs ->
  TeamRoute.model Team Crates id queryRecord query params
  = (Returned (ReplaceWith "index"), ["Team '" +:+ id team +:+ "' does not exist"]).
Proof.
  intros Hteam Hquery Herrs Hin. unfold TeamRoute.model, TeamRoute.on_error.
  rewrite Hteam, Hquery, Herrs. simpl.
  assert (Hex : existsb (fun detail => String.eqb detail "Not Found") errs = true).
  { apply existsb_exists. exists "Not Found". split; [exact Hin|reflexivity]. }
  now rewrite Hex.
Qed.

(** X27: the keyword route resolves to the keyword the store finds; it
    redirects to the index route with one notification exactly on a
    NotFoundError; every other error of the store it throws on unchanged;
    it never resolves to nothing. *)
Theorem keyword_hook_outcomes keyword_id :
  match KeywordRoute.model Keyword find keyword_id with
  | (Returned (Model keyword), notes) =>
      find keyword_id = Returned keyword /\ notes = []
  | (Returned (ReplaceWith route), notes) =>
      route = "index"
      /\ notes = ["Keyword '" +:+ keyword_id +:+ "' does not exist"]
      /\ exists error, find keyword_id = Thrown error
                       /\ is_NotFoundError error = true
  | (Returned Undefined, _) => False
  | (Thrown error, notes) =>
      find keyword_id = Thrown error
      /\ is_NotFoundError error = false
      /\ notes = []
  end.
Proof.
  unfold KeywordRoute.model.
  destruct (find keyword_id) as [keyword|error]; [auto|].
  destruct (is_NotFoundError error) eqn:H; eauto.
Qed.

End RoutesMore.

(** ** More concrete runs *)

Section MoreRuns.
Import JS VersionRoute Examples.


(** Requesting the yanked 1.1.0 by its num resolves to it. *)
Lemma requested_version_found_witness :
  result (model Semver.prerelease object_toString crate_beta_over_stable (PStr "1.1.0"))
  = Returned (version "1.1.0" true)
  /\ flash (model Semver.prerelease object_toString crate_beta_over_stable (PStr "1.1.0"))
     = []
  /\ version_num_after
       (model Semver.prerelease object_toString crate_beta_over_stable (PStr "1.1.0"))
     = PStr "1.1.0"
  /\ serialize (version "1.1.0" true) = PStr "1.1.0".
Proof.
  apply (requested_version_found Semver.prerelease object_toString
           crate_beta_over_stable "1.1.0" (version "1.1.0" true));
    reflexivity.
Defined.

Lemma model_serialize_round_trip_witness :
  result (model Semver.prerelease object_toString crate_beta_over_stable
            (serialize (version "1.1.0" true)))
  = Returned (version "1.1.0" true)
  /\ flash (model Semver.prerelease object_toString crate_beta_over_stable
              (serialize (version "1.1.0" true)))
     = [].
Proof.
  apply (model_serialize_round_trip Semver.prerelease object_toString
           crate_beta_over_stable (version "1.1.0" true)).
  - simpl. auto.
  - simpl. repeat constructor; simpl; intuition discriminate.
  - discriminate.
  - discriminate.
Defined.

(** The request "all" on a crate of stable releases. *)
Lemma stable_max_version_selected_witness :
  version_num_after (model Semver.prerelease object_toString crate_stable (PStr "all"))
  = PStr (max_version crate_stable).
Proof.
  apply (stable_max_version_selected Semver.prerelease object_toString
           crate_stable (PStr "all")).
  - reflexivity.
  - discriminate.
  - reflexivity.
Defined.

Lemma all_request_on_yanked_crate_warns_witness :
  flash (model Semver.prerelease object_toString crate_yanked (PStr "all"))
  = ["Version 'all' of crate '" +:+ name crate_yanked +:+ "' does not exist"].
Proof.
  apply (all_request_on_yanked_crate_warns Semver.prerelease object_toString
           crate_yanked).
  - reflexivity.
  - simpl. intros v [<-|[]]. discriminate.
Defined.

Lemma absent_request_on_yanked_crate_witness :
  flash (model Semver.prerelease object_toString crate_yanked PUndefined) = [].
Proof.
  apply (absent_request_on_yanked_crate Semver.prerelease object_toString
           crate_yanked).
  reflexivity.
Defined.

(** Only live prereleases: the hook resolves to the one matching
    [max_version]. *)
Lemma unstable_max_without_stable_live_witness :
  version_num_after
    (model Semver.prerelease object_toString crate_two_alphas PUndefined)
  = PStr (max_version crate_two_alphas).
Proof.
  apply (unstable_max_without_stable_live Semver.prerelease object_toString
           semver_sentinel crate_two_alphas PUndefined);
    reflexivity.
Defined.

(** Two records of num 1.0.0: the selection carries that num and is
    stable. *)
Lemma unstable_max_selects_stable_num_witness :
  exists v,
    result (model Semver.prerelease object_toString crate_repeated_num PUndefined)
    = Returned v
    /\ num v = num (version "1.0.0" false)
    /\ isUnstableVersion Semver.prerelease (num v) = false.
Proof.
  apply (unstable_max_selects_stable_num Semver.prerelease object_toString
           semver_sentinel crate_repeated_num PUndefined (version "1.0.0" false));
    reflexivity.
Defined.

Lemma custom_documentation_kept_witness :
  docs_request (model Semver.prerelease object_toString crate_custom_docs PUndefined)
  = None
  /\ documentation
       (snd (run Semver.prerelease object_toString (network FetchRejected)
               crate_custom_docs PUndefined))
     = Some "https://nanomsg.org/documentation".
Proof.
  apply (custom_documentation_kept Semver.prerelease object_toString
           (network FetchRejected) crate_custom_docs PUndefined
           "https://nanomsg.org/documentation").
  - reflexivity.
  - discriminate.
  - discriminate.
Defined.

Lemma readme_kept_without_path_witness :
  readme_request
    (model Semver.prerelease object_toString crate_without_readme PUndefined)
  = None
  /\ readme (snd (run Semver.prerelease object_toString
                    (network (FetchResponse true (Some "fresh")))
                    crate_without_readme PUndefined))
     = readme crate_without_readme.
Proof.
  apply (readme_kept_without_path Semver.prerelease object_toString
           (network (FetchResponse true (Some "fresh"))) crate_without_readme
           PUndefined {| num := "1.0.0"; yanked := false; readme_path := None |});
    reflexivity.
Defined.

End MoreRuns.

Section MoreInviteRuns.
Import JS InviteRow Examples.

(** A failed accept followed by a saved one: the message of the failure
    is still there. *)
Lemma inviteError_kept_while_saved_witness :
  inviteError
    (fst (steps (step (initial, pending_invite)
                   {| accept := true; save := SaveFailed network_failure |})
            [ {| accept := true; save := Saved |} ]))
  = inviteError
      (fst (step (initial, pending_invite)
              {| accept := true; save := SaveFailed network_failure |})).
Proof.
  apply (inviteError_kept_while_saved
           (step (initial, pending_invite)
              {| accept := true; save := SaveFailed network_failure |})
           [ {| accept := true; save := Saved |} ]).
  reflexivity.
Defined.

Lemma empty_errors_array_throws_witness :
  respondToInvitation false initial pending_invite (SaveFailed (server_error []))
  = (Thrown TypeError, set_isError true initial, {| accepted := Some false |}).
Proof.
  apply (empty_errors_array_throws false initial pending_invite (server_error [])).
  reflexivity.
Defined.

End MoreInviteRuns.

Section MoreComponentRuns.
Import JS Route Examples.

(** A copy, its timer, and a second copy whose timer has not run. *)
Lemma notification_has_timer_witness :
  0 < CrateTomlCopy.scheduled
        (CrateTomlCopy.run
           {| CrateTomlCopy.this := CrateTomlCopy.initial;
              CrateTomlCopy.scheduled := 0 |}
           [CrateTomlCopy.CopySuccess; CrateTomlCopy.TimerElapsed;
            CrateTomlCopy.CopyError]).
Proof.
  apply (notification_has_timer
           [CrateTomlCopy.CopySuccess; CrateTomlCopy.TimerElapsed;
            CrateTomlCopy.CopyError]).
  reflexivity.
Defined.

Lemma map_getItem_setItem key value (storage : gmap string string) :
  map_getItem key (map_setItem key value storage) = Some value.
Proof. apply lookup_insert_eq. Qed.

(** The design service over a map as storage, starting from the old
    design and an empty storage. *)
Lemma toggle_persists_witness :
  let '(service', storage') :=
    DesignService.toggle (gmap string string) map_setItem
      (DesignService.create (gmap string string) map_getItem false "production" ∅)
      ∅ in
  DesignService.useNewDesign
    (DesignService.create (gmap string string) map_getItem false "production" storage')
  = DesignService.useNewDesign service'
  /\ DesignService.useNewDesign service'
     = negb (DesignService.useNewDesign
               (DesignService.create (gmap string string) map_getItem false
                  "production" ∅))
  /\ DesignService.useNewDesign
       (DesignService.create (gmap string string) map_getItem true "production" storage')
     = false.
Proof.
  apply (toggle_persists (gmap string string) map_getItem map_setItem
           map_getItem_setItem
           (DesignService.create (gmap string string) map_getItem false "production" ∅)
           ∅ "production").
Defined.

(** The team is found under the record id 42 and the crates query
    answers Not Found: the notification names 42. *)
Lemma team_notification_names_record_id_witness :
  TeamRoute.model string (list string) (fun team => team) team_found
    crates_not_found team_params
  = (Returned (ReplaceWith "index"), ["Team '42' does not exist"]).
Proof.
  apply (team_notification_names_record_id string (list string) (fun team => team)
           team_found crates_not_found team_params "42"
           (server_error ["Not Found"]) ["Not Found"]).
  - reflexivity.
  - reflexivity.
  - reflexivity.
  - simpl. auto.
Defined.

End MoreComponentRuns.
